(** * example_dag.py: the example workflow of airflow-on-minikube

    The repository is one Python module, [example_dag.py].  It builds a
    default-arguments dictionary, one [DAG] object, two Python callables,
    four operators registered against the DAG, and two dependency
    statements written with [>>].

    The development has three layers:
    - [Py]: the fragment of Python the module is written in (strings,
      [datetime], [timedelta], dictionaries, function bodies and their
      evaluation, with [print] as an effect on standard output);
    - [Airflow]: the part of the platform's object model the module drives
      (operators, the DAG's task dictionary, [set_downstream] /
      [set_upstream] behind [>>]);
    - the module itself, statement by statement, and the properties of the
      graph it declares.

    Python [str] values are represented by their UTF-8 bytes. *)

From Stdlib Require Import String Ascii List ZArith Bool Lia Relations.
From Stdlib Require Import Permutation.
Import ListNotations.
Open Scope string_scope.
Set Warnings "-register-all".

(** ** Results of fallible computations *)

Inductive result (E A : Type) : Type :=
| Ok (a : A)
| Err (e : E).
Arguments Ok {E A} a.
Arguments Err {E A} e.

(** * The Python fragment *)
Module Py.

(** Exceptions the fragment can raise.  [Raised] is an exception raised by
    a [raise] statement; [OutsideFragment] is not a Python exception: it
    marks an evaluation that needs a part of Python this model leaves out. *)
Inductive exn : Type :=
| NameError (name : string)
| AttributeError (obj attr : string)
| TypeError (what : string)
| ValueError (what : string)
| ImportError (module : string)
| Raised (what : string)
| OutsideFragment (what : string).

(** *** datetime.datetime

    [datetime(year, month, day, hour=0, minute=0, second=0, microsecond=0)].
    The constructor checks the ranges of its fields and raises [ValueError]
    outside them. *)
Record datetime_t : Type := mk_datetime {
  year : Z; month : Z; day : Z;
  hour : Z; minute : Z; second : Z; microsecond : Z
}.

Definition is_leap (y : Z) : bool :=
  ((y mod 4 =? 0) && (negb (y mod 100 =? 0) || (y mod 400 =? 0)))%Z.

Definition days_in_month (y m : Z) : Z :=
  if (m =? 2)%Z then (if is_leap y then 29 else 28)%Z
  else if ((m =? 4) || (m =? 6) || (m =? 9) || (m =? 11))%Z then 30%Z
  else 31%Z.

Definition in_range (lo x hi : Z) : bool := ((lo <=? x) && (x <=? hi))%Z.

Definition datetime_full (y mo d h mi s us : Z) : result exn datetime_t :=
  if negb (in_range 1 y 9999) then Err (ValueError "year is out of range")
  else if negb (in_range 1 mo 12) then Err (ValueError "month must be in 1..12")
  else if negb (in_range 1 d (days_in_month y mo))
       then Err (ValueError "day is out of range for month")
  else if negb (in_range 0 h 23) then Err (ValueError "hour must be in 0..23")
  else if negb (in_range 0 mi 59) then Err (ValueError "minute must be in 0..59")
  else if negb (in_range 0 s 59) then Err (ValueError "second must be in 0..59")
  else if negb (in_range 0 us 999999)
       then Err (ValueError "microsecond must be in 0..999999")
  else Ok (mk_datetime y mo d h mi s us).

(** [datetime(y, m, d)]: the time-of-day arguments take their default, 0. *)
Definition datetime (y mo d : Z) : result exn datetime_t :=
  datetime_full y mo d 0 0 0 0.

(** Decimal rendering of a natural number, zero-padded to [width] digits
    (the [%04d] / [%02d] of [isoformat]). *)
Definition digit (n : nat) : ascii := ascii_of_nat (48 + n mod 10).

Fixpoint digits_rev (fuel n : nat) : list ascii :=
  match fuel with
  | O => []
  | S fuel' =>
      if Nat.ltb n 10 then [digit n]
      else digit n :: digits_rev fuel' (n / 10)
  end.

Fixpoint pad_to (width : nat) (l : list ascii) : list ascii :=
  match width with
  | O => l
  | S w =>
      match l with
      | [] => digit 0 :: pad_to w []
      | c :: l' => c :: pad_to w l'
      end
  end.

Definition zfill (width : nat) (z : Z) : string :=
  let n := Z.to_nat z in
  string_of_list_ascii (rev (pad_to width (digits_rev (S n) n))).

(** [datetime.isoformat()]: [YYYY-MM-DDTHH:MM:SS], followed by
    [.ffffff] when the microsecond field is not zero. *)
Definition isoformat (t : datetime_t) : string :=
  zfill 4 (year t) ++ "-" ++ zfill 2 (month t) ++ "-" ++ zfill 2 (day t)
  ++ "T" ++ zfill 2 (hour t) ++ ":" ++ zfill 2 (minute t)
  ++ ":" ++ zfill 2 (second t)
  ++ (if (microsecond t =? 0)%Z then "" else "." ++ zfill 6 (microsecond t)).

(** *** datetime.timedelta

    A duration is stored normalised as days, seconds and microseconds with
    [0 <= seconds < 86400] and [0 <= microseconds < 1000000]; the
    constructor accepts integer keyword arguments and raises
    [OverflowError] (here [ValueError]) when the day count leaves
    [-999999999 .. 999999999]. *)
Record timedelta_t : Type := mk_timedelta {
  td_days : Z; td_seconds : Z; td_microseconds : Z
}.

Record timedelta_args : Type := mk_td_args {
  a_days : Z; a_seconds : Z; a_microseconds : Z; a_milliseconds : Z;
  a_minutes : Z; a_hours : Z; a_weeks : Z
}.

Definition total_microseconds_of_args (a : timedelta_args) : Z :=
  ((((a_weeks a * 7 + a_days a) * 24 + a_hours a) * 60 + a_minutes a) * 60
     + a_seconds a) * 1000000
  + a_milliseconds a * 1000 + a_microseconds a.

Definition timedelta (a : timedelta_args) : result exn timedelta_t :=
  let us := total_microseconds_of_args a in
  let d := (us / 86400000000)%Z in
  let r := (us mod 86400000000)%Z in
  if in_range (-999999999) d 999999999
  then Ok (mk_timedelta d (r / 1000000) (r mod 1000000))
  else Err (ValueError "days out of range for timedelta").

(** [timedelta(minutes=m)]. *)
Definition timedelta_minutes (m : Z) : result exn timedelta_t :=
  timedelta (mk_td_args 0 0 0 0 m 0 0).

(** [timedelta.total_seconds()], for durations that are whole seconds;
    microseconds are reported apart. *)
Definition total_seconds (t : timedelta_t) : Z :=
  (td_days t * 86400 + td_seconds t)%Z.

(** ** Sequencing of fallible computations *)

Definition bind {E A B} (r : result E A) (k : A -> result E B) : result E B :=
  match r with
  | Ok a => k a
  | Err e => Err e
  end.

(** ** Dictionaries

    A dictionary literal keeps its keys in insertion order; a key written
    twice keeps its first position and its last value. *)
Section Dict.
Context {V : Type}.

Definition dict : Type := list (string * V).

Fixpoint get (k : string) (d : dict) : option V :=
  match d with
  | [] => None
  | (k', v) :: d' => if String.eqb k k' then Some v else get k d'
  end.

Fixpoint set_item (k : string) (v : V) (d : dict) : dict :=
  match d with
  | [] => [(k, v)]
  | (k', v') :: d' =>
      if String.eqb k k' then (k', v) :: d' else (k', v') :: set_item k v d'
  end.

Definition keys (d : dict) : list string := map fst d.

(** [{k1: v1, ..., kn: vn}], built left to right. *)
Definition dict_literal (items : list (string * V)) : dict :=
  fold_left (fun d kv => set_item (fst kv) (snd kv) d) items [].
End Dict.
Arguments dict V : clear implicits.

(** Values stored in the default-arguments dictionary. *)
Inductive arg_value : Type :=
| AStr (s : string)
| ABool (b : bool)
| AInt (z : Z)
| ADatetime (t : datetime_t)
| ATimedelta (t : timedelta_t).

(** ** Function bodies

    The syntax follows Python's [ast]: a body is a list of statements; an
    f-string is a [JoinedStr] whose parts are string constants and
    [FormattedValue]s.  [SIf] and [SRaise] are the statements through which
    a body can branch or raise by itself. *)
Inductive expr : Type :=
| EStr (s : string)
| EName (x : string)
| EAttr (e : expr) (attr : string)
| ECall (f : expr) (args : list expr)
| EFormatted (e : expr)
| EJoinedStr (parts : list expr).

Inductive stmt : Type :=
| SExpr (e : expr)
| SImport (module : string)
| SReturn (e : expr)
| SIf (test : expr) (body orelse : list stmt)
| SRaise (what : string).

Record funcdef : Type := mk_funcdef {
  name : string;
  body : list stmt
}.

(** Objects a body of this fragment can hold. *)
Inductive value : Type :=
| VNone
| VStr (s : string)
| VModule (m : string)
| VBuiltin (f : string).

(** What a call sees of the interpreter it runs in: [sys.version] and the
    answers of [platform.platform()] and [platform.processor()]. *)
Record world : Type := mk_world {
  sys_version : string;
  platform_platform : string;
  platform_processor : string
}.

Definition stdout : Type := list string.
Definition locals : Type := dict value.

(** Evaluation threads standard output: what was printed before an
    exception stays printed. *)
Definition M (A : Type) : Type := stdout -> result exn A * stdout.

Definition ret {A} (a : A) : M A := fun out => (Ok a, out).
Definition raise {A} (e : exn) : M A := fun out => (Err e, out).
Definition mbind {A B} (m : M A) (k : A -> M B) : M B :=
  fun out =>
    match m out with
    | (Ok a, out') => k a out'
    | (Err e, out') => (Err e, out')
    end.

Notation "x <- m ;; k" := (mbind m (fun x => k))
  (at level 61, m at next level, right associativity).

(** [print(v)] writes [str(v)] as one line. *)
Definition str_of (v : value) : M string :=
  match v with
  | VStr s => ret s
  | VNone => ret "None"
  | VModule _ => raise (OutsideFragment "str of a module")
  | VBuiltin _ => raise (OutsideFragment "str of a function")
  end.

Definition print (v : value) : M value :=
  s <- str_of v ;;
  fun out => (Ok VNone, (out ++ [s])%list).

Definition builtins (x : string) : option value :=
  if String.eqb x "print" then Some (VBuiltin "print") else None.

Definition lookup_name (env : locals) (x : string) : M value :=
  match get x env with
  | Some v => ret v
  | None =>
      match builtins x with
      | Some v => ret v
      | None => raise (NameError x)
      end
  end.

Definition getattr (w : world) (v : value) (attr : string) : M value :=
  match v with
  | VModule m =>
      if String.eqb m "sys" && String.eqb attr "version"
      then ret (VStr (sys_version w))
      else if String.eqb m "platform" && String.eqb attr "platform"
      then ret (VBuiltin "platform.platform")
      else if String.eqb m "platform" && String.eqb attr "processor"
      then ret (VBuiltin "platform.processor")
      else raise (OutsideFragment (m ++ "." ++ attr))
  | VStr _ => raise (OutsideFragment ("str." ++ attr))
  | VNone => raise (AttributeError "NoneType" attr)
  | VBuiltin _ => raise (OutsideFragment ("function." ++ attr))
  end.

Definition apply (w : world) (f : value) (args : list value) : M value :=
  match f with
  | VBuiltin fn =>
      if String.eqb fn "print" then
        match args with
        | [v] => print v
        | _ => raise (OutsideFragment "print with zero or several arguments")
        end
      else if String.eqb fn "platform.platform" then
        match args with
        | [] => ret (VStr (platform_platform w))
        | _ => raise (OutsideFragment "platform.platform with arguments")
        end
      else if String.eqb fn "platform.processor" then
        match args with
        | [] => ret (VStr (platform_processor w))
        | _ => raise (TypeError "processor() takes 0 positional arguments")
        end
      else raise (OutsideFragment fn)
  | VNone => raise (TypeError "'NoneType' object is not callable")
  | VStr _ => raise (TypeError "'str' object is not callable")
  | VModule _ => raise (TypeError "'module' object is not callable")
  end.

Definition as_str (v : value) : M string :=
  match v with
  | VStr s => ret s
  | _ => raise (TypeError "expected str")
  end.

(** The callee is evaluated before its arguments, and arguments and
    f-string parts from left to right. *)
Fixpoint eval (w : world) (env : locals) (e : expr) : M value :=
  match e with
  | EStr s => ret (VStr s)
  | EName x => lookup_name env x
  | EAttr e' attr => v <- eval w env e' ;; getattr w v attr
  | ECall f args =>
      vf <- eval w env f ;;
      vs <- (fix eval_args (l : list expr) : M (list value) :=
               match l with
               | [] => ret []
               | a :: l' =>
                   v <- eval w env a ;;
                   vs <- eval_args l' ;;
                   ret (v :: vs)
               end) args ;;
      apply w vf vs
  | EFormatted e' =>
      v <- eval w env e' ;; s <- str_of v ;; ret (VStr s)
  | EJoinedStr parts =>
      s <- (fix join (l : list expr) : M string :=
              match l with
              | [] => ret ""
              | p :: l' =>
                  v <- eval w env p ;;
                  s <- as_str v ;;
                  rest <- join l' ;;
                  ret (s ++ rest)
              end) parts ;;
      ret (VStr s)
  end.

Definition truthy (v : value) : bool :=
  match v with
  | VNone => false
  | VStr s => negb (String.eqb s "")
  | VModule _ | VBuiltin _ => true
  end.

(** Modules the interpreter can import. *)
Definition importable (m : string) : bool :=
  String.eqb m "sys" || String.eqb m "platform".

(** How a statement ends: control goes on with new locals, or the function
    returns. *)
Inductive signal : Type :=
| Continue (env : locals)
| Return (v : value).

Fixpoint exec (w : world) (env : locals) (s : stmt) : M signal :=
  match s with
  | SExpr e => _ <- eval w env e ;; ret (Continue env)
  | SImport m =>
      if importable m then ret (Continue (set_item m (VModule m) env))
      else raise (ImportError m)
  | SReturn e => v <- eval w env e ;; ret (Return v)
  | SIf test body orelse =>
      c <- eval w env test ;;
      (fix exec_block (env : locals) (l : list stmt) : M signal :=
         match l with
         | [] => ret (Continue env)
         | s' :: l' =>
             r <- exec w env s' ;;
             match r with
             | Continue env' => exec_block env' l'
             | Return v => ret (Return v)
             end
         end) env (if truthy c then body else orelse)
  | SRaise what => raise (Raised what)
  end.

Fixpoint exec_block (w : world) (env : locals) (l : list stmt) : M signal :=
  match l with
  | [] => ret (Continue env)
  | s :: l' =>
      r <- exec w env s ;;
      match r with
      | Continue env' => exec_block w env' l'
      | Return v => ret (Return v)
      end
  end.

(** A call of a function without parameters: fresh locals; falling off the
    end of the body returns [None]. *)
Definition call (w : world) (f : funcdef) : M value :=
  r <- exec_block w [] (body f) ;;
  match r with
  | Continue _ => ret VNone
  | Return v => ret v
  end.

(** A body is straight-line when none of its statements is a branch or a
    [raise]. *)
Definition is_simple (s : stmt) : bool :=
  match s with
  | SExpr _ | SImport _ | SReturn _ => true
  | SIf _ _ _ | SRaise _ => false
  end.

Definition straight_line (l : list stmt) : bool := forallb is_simple l.

End Py.

(** * The platform's object model *)
Module Airflow.
Import Py.

(** Errors of loading a DAG file: a Python exception, or one of the
    platform's own. *)
Inductive error : Type :=
| PyError (e : exn)
| DuplicateTaskIdFound (task_id : string)
| AirflowException (what : string).

Definition lift {A} (r : result exn A) : result error A :=
  match r with
  | Ok a => Ok a
  | Err e => Err (PyError e)
  end.

(** What a task does: call a Python function, or run a shell command. *)
Inductive action : Type :=
| PythonCallable (python_callable : funcdef)
| BashCommand (bash_command : string).

(** An operator with its relatives.  Like the platform, the sets of
    relatives hold task identifiers, not operators. *)
Record operator : Type := mk_operator {
  task_id : string;
  act : action;
  upstream_task_ids : list string;
  downstream_task_ids : list string
}.

Definition PythonOperator (task_id : string) (python_callable : funcdef)
  : operator :=
  mk_operator task_id (PythonCallable python_callable) [] [].

Definition BashOperator (task_id : string) (bash_command : string)
  : operator :=
  mk_operator task_id (BashCommand bash_command) [] [].

(** The DAG object.  [task_dict] is the one store of the operators
    registered with it: a Python variable bound to an operator and the
    entry of [task_dict] under its identifier are the same object, so an
    operator is referred to by its identifier and read from [task_dict].

    The constructor is taken to accept the keyword arguments the module
    passes and to store them as they are; which keywords a given release
    of the platform accepts is outside this model. *)
Record DAG : Type := mk_DAG {
  dag_id : string;
  default_args : dict arg_value;
  description : string;
  schedule_interval : string;
  start_date : datetime_t;
  catchup : bool;
  tags : list string;
  task_dict : dict operator
}.

Definition with_task_dict (d : DAG) (t : dict operator) : DAG :=
  mk_DAG (dag_id d) (default_args d) (description d) (schedule_interval d)
         (start_date d) (catchup d) (tags d) t.

(** [set.add] on a set of identifiers. *)
Definition set_add (x : string) (s : list string) : list string :=
  if existsb (String.eqb x) s then s else (s ++ [x])%list.

(** [dag.add_task(op)], what the keyword argument [dag=dag] of an operator
    does: an identifier already present is refused. *)
Definition add_task (op : operator) (d : DAG) : result error DAG :=
  match get (task_id op) (task_dict d) with
  | Some _ => Err (DuplicateTaskIdFound (task_id op))
  | None => Ok (with_task_dict d (set_item (task_id op) op (task_dict d)))
  end.

Definition find_task (id : string) (d : DAG) : result error operator :=
  match get id (task_dict d) with
  | Some op => Ok op
  | None => Err (AirflowException ("task " ++ id ++ " is not in the DAG"))
  end.

(** One edge [up -> down]: [down] joins the downstream set of [up] and
    [up] the upstream set of [down]. *)
Definition add_edge (up down : string) (d : DAG) : result error DAG :=
  bind (find_task up d) (fun u =>
  let u' := mk_operator (task_id u) (act u) (upstream_task_ids u)
                        (set_add down (downstream_task_ids u)) in
  let d1 := with_task_dict d (set_item up u' (task_dict d)) in
  bind (find_task down d1) (fun w =>
  let w' := mk_operator (task_id w) (act w)
                        (set_add up (upstream_task_ids w))
                        (downstream_task_ids w) in
  Ok (with_task_dict d1 (set_item down w' (task_dict d1))))).

Fixpoint set_downstream (t : string) (others : list string) (d : DAG)
  : result error DAG :=
  match others with
  | [] => Ok d
  | o :: others' => bind (add_edge t o d) (set_downstream t others')
  end.

Fixpoint set_upstream (t : string) (others : list string) (d : DAG)
  : result error DAG :=
  match others with
  | [] => Ok d
  | o :: others' => bind (add_edge o t d) (set_upstream t others')
  end.

(** [t >> [o1, ..., on]] is [t.__rshift__(others)], that is
    [t.set_downstream(others)]. *)
Definition rshift (t : operator) (others : list operator) (d : DAG)
  : result error DAG :=
  set_downstream (task_id t) (map task_id others) d.

(** [[o1, ..., on] >> t]: a list has no [__rshift__], so Python calls
    [t.__rrshift__(others)], that is [t.set_upstream(others)]. *)
Definition rrshift (others : list operator) (t : operator) (d : DAG)
  : result error DAG :=
  set_upstream (task_id t) (map task_id others) d.

(** Reading the declared graph. *)
Definition task_ids (d : DAG) : list string := keys (task_dict d).

Definition downstream_of (d : DAG) (id : string) : list string :=
  match get id (task_dict d) with
  | Some op => downstream_task_ids op
  | None => []
  end.

Definition upstream_of (d : DAG) (id : string) : list string :=
  match get id (task_dict d) with
  | Some op => upstream_task_ids op
  | None => []
  end.

(** Every pair (identifier, relative) of a task dictionary, for one of the
    two sets of relatives, in the order of the dictionary. *)
Definition relatives (sel : operator -> list string) (t : dict operator)
  : list (string * string) :=
  flat_map (fun kv => map (pair (fst kv)) (sel (snd kv))) t.

Definition swap (p : string * string) : string * string := (snd p, fst p).

(** All direct dependencies [(up, down)], read from the downstream sets. *)
Definition edges (d : DAG) : list (string * string) :=
  relatives downstream_task_ids (task_dict d).

(** The same pairs read from the upstream sets. *)
Definition upstream_edges (d : DAG) : list (string * string) :=
  map swap (relatives upstream_task_ids (task_dict d)).

(** The identifiers of the operators that carry a shell command. *)
Definition bash_task_ids (d : DAG) : list string :=
  keys (filter (fun kv => match act (snd kv) with
                          | BashCommand _ => true
                          | PythonCallable _ => false
                          end)
               (task_dict d)).

End Airflow.

(** * example_dag.py *)
Import Py Airflow.

Notation "'let*' x ':=' m 'in' k" := (bind m (fun x => k))
  (at level 10, x name, m at level 100, k at level 200).

(** The double-quote character, for the shell command that contains it. *)
Definition dquote : string := String "034"%char EmptyString.

(** [default_args = { ... }].  The values are evaluated in the order in
    which they are written. *)
Definition default_args : result exn (dict arg_value) :=
  let* start := datetime 2024 1 1 in
  let* delay := timedelta_minutes 5 in
  Ok (dict_literal
        [ ("owner", AStr "mcheriyath");
          ("depends_on_past", ABool false);
          ("start_date", ADatetime start);
          ("email_on_failure", ABool false);
          ("email_on_retry", ABool false);
          ("retries", AInt 1);
          ("retry_delay", ATimedelta delay) ]).

(** [dag = DAG('example_airflow_test', default_args=default_args, ...)]:
    the DAG as constructed, before any operator is registered. *)
Definition dag : result error DAG :=
  let* args := lift default_args in
  let* start := lift (datetime 2024 1 1) in
  Ok (mk_DAG "example_airflow_test"
             args
             "A simple example DAG to test Airflow 3.1.0"
             "@daily"
             start
             false
             ["example"; "test"; "airflow-3.1.0"]
             []).

(** [def print_hello(): ...] *)
Definition print_hello : funcdef :=
  mk_funcdef "print_hello"
    [ SExpr (EStr "Simple Python function to print hello message");
      SExpr (ECall (EName "print") [EStr "🚁 Hello from Airflow 3.1.0!"]);
      SExpr (ECall (EName "print")
               [EStr "🎯 DAG is running successfully on Minikube!"]);
      SReturn (EStr "Success!") ].

(** [def print_system_info(): ...] *)
Definition print_system_info : funcdef :=
  mk_funcdef "print_system_info"
    [ SExpr (EStr "Print system information");
      SImport "platform";
      SImport "sys";
      SExpr (ECall (EName "print")
               [EJoinedStr [EStr "🐍 Python version: ";
                            EFormatted (EAttr (EName "sys") "version")]]);
      SExpr (ECall (EName "print")
               [EJoinedStr [EStr "🖥️  Platform: ";
                            EFormatted
                              (ECall (EAttr (EName "platform") "platform")
                                     [])]]);
      SExpr (ECall (EName "print")
               [EJoinedStr [EStr "⚙️  Processor: ";
                            EFormatted
                              (ECall (EAttr (EName "platform") "processor")
                                     [])]]);
      SExpr (ECall (EName "print")
               [EStr "✨ Airflow 3.1.0 test completed successfully!"]);
      SReturn (EStr "System info collected!") ].

(** The four operators as their constructors build them; [dag=dag]
    registers each with the DAG, in [example_dag] below. *)
Definition hello_task : operator :=
  PythonOperator "print_hello" print_hello.

Definition system_info_task : operator :=
  PythonOperator "print_system_info" print_system_info.

Definition bash_task : operator :=
  BashOperator "run_bash_command"
    ("echo " ++ dquote ++ "🎉 Bash task completed successfully!" ++ dquote
     ++ " && date").

Definition version_check_task : operator :=
  BashOperator "check_airflow_version" "airflow version".

(** The module's statements that build the graph, in source order: the DAG,
    the four registrations, the two dependency statements. *)
Definition example_dag : result error DAG :=
  let* d := dag in
  let* d := add_task hello_task d in
  let* d := add_task system_info_task d in
  let* d := add_task bash_task d in
  let* d := add_task version_check_task d in
  let* d := rshift hello_task [system_info_task; bash_task] d in
  rrshift [system_info_task; bash_task] version_check_task d.

(** [up] is a direct predecessor of [down] in the graph the module
    declares. *)
Definition depends (up down : string) : Prop :=
  exists d, example_dag = Ok d /\ In down (downstream_of d up).

(** The same relation read from the upstream sets. *)
Definition depended_on_by (up down : string) : Prop :=
  exists d, example_dag = Ok d /\ In up (upstream_of d down).

(** A task of the declared graph. *)
Definition is_task (t : string) : Prop :=
  exists d, example_dag = Ok d /\ In t (task_ids d).

(** A chain is a non-empty path of direct dependencies between tasks; it
    is maximal when it can be extended at neither end. *)
Fixpoint chain (l : list string) : Prop :=
  match l with
  | [] => False
  | [t] => is_task t
  | up :: ((down :: _) as l') => depends up down /\ chain l'
  end.

Definition first_of (l : list string) : string := hd "" l.
Definition last_of (l : list string) : string := last l "".

Definition maximal_chain (l : list string) : Prop :=
  chain l
  /\ (forall t, ~ depends t (first_of l))
  /\ (forall t, ~ depends (last_of l) t).

(** The lines the two callables are expected to print. *)
Definition hello_lines : list string :=
  [ "🚁 Hello from Airflow 3.1.0!";
    "🎯 DAG is running successfully on Minikube!" ].

Definition system_info_lines (w : world) : list string :=
  [ "🐍 Python version: " ++ sys_version w;
    "🖥️  Platform: " ++ platform_platform w;
    "⚙️  Processor: " ++ platform_processor w;
    "✨ Airflow 3.1.0 test completed successfully!" ].

(** The four task identifiers, in the order of registration. *)
Definition declared_task_ids : list string :=
  [ "print_hello"; "print_system_info"; "run_bash_command";
    "check_airflow_version" ].

(** The four direct dependencies the two [>>] statements spell out. *)
Definition declared_edges : list (string * string) :=
  [ (task_id hello_task, task_id system_info_task);
    (task_id hello_task, task_id bash_task);
    (task_id system_info_task, task_id version_check_task);
    (task_id bash_task, task_id version_check_task) ].

(** The position of a task in the declared order: [hello_task] first, the
    two middle tasks next, [version_check_task] last. *)
Definition rank (t : string) : nat :=
  if String.eqb t (task_id hello_task) then 0
  else if String.eqb t (task_id system_info_task) then 1
  else if String.eqb t (task_id bash_task) then 1
  else 2.

(** The action registered under an identifier in the graph the module
    declares, if there is one. *)
Definition task_action (id : string) : option action :=
  match example_dag with
  | Ok d => option_map act (get id (task_dict d))
  | Err _ => None
  end.

(** The identifiers of a task dictionary with the action of each. *)
Definition actions (t : dict operator) : dict action :=
  map (fun kv => (fst kv, act (snd kv))) t.

(** The position of the first occurrence of [t] in [l]. *)
Fixpoint index_of (t : string) (l : list string) : option nat :=
  match l with
  | [] => None
  | x :: l' =>
      if String.eqb t x then Some 0
      else match index_of t l' with
           | Some i => Some (S i)
           | None => None
           end
  end.

(** [up] occurs in [l], and [down] occurs later. *)
Definition runs_before (up down : string) (l : list string) : bool :=
  match index_of up l, index_of down l with
  | Some i, Some j => Nat.ltb i j
  | _, _ => false
  end.

(** A sequential schedule runs every task of the graph once and no task
    before one of its direct predecessors. *)
Definition schedule (l : list string) : Prop :=
  NoDup l
  /\ (forall t, In t l <-> is_task t)
  /\ (forall up down, depends up down -> runs_before up down l = true).

(** The pairs of the transitive closure of the declared dependencies: the
    four direct ones, and [hello_task] before [version_check_task]. *)
Definition declared_paths : list (string * string) :=
  (declared_edges
     ++ [(task_id hello_task, task_id version_check_task)])%list.

(** * Properties *)

(** ** Dictionaries and edge lists *)

Section Relatives.
Variable sel : operator -> list string.

Lemma relatives_key (t : dict operator) (k x : string) :
  In (k, x) (relatives sel t) -> In k (keys t).
Proof.
  induction t as [| [k' v] t IH]; simpl; [tauto |].
  rewrite in_app_iff, in_map_iff.
  intros [(y & Hy & _) | H]; [left; congruence | right; auto].
Qed.

Lemma get_relatives (t : dict operator) (k x : string) :
  NoDup (keys t) ->
  In x (match get k t with Some op => sel op | None => [] end)
  <-> In (k, x) (relatives sel t).
Proof.
  induction t as [| [k' v] t IH]; simpl; [tauto |].
  intros Hnd. inversion Hnd as [| ? ? Hnotin Hnd']; subst.
  rewrite in_app_iff, in_map_iff.
  destruct (String.eqb_spec k k') as [-> | Hne].
  - split.
    + intros H. left. exists x. auto.
    + intros [(y & Hy & Hin) | H].
      * congruence.
      * exfalso. apply Hnotin. eapply relatives_key; eauto.
  - rewrite (IH Hnd'). split; [auto |].
    intros [(y & Hy & _) | H]; [congruence | assumption].
Qed.
End Relatives.

Lemma downstream_in_edges (d : DAG) (up down : string) :
  NoDup (task_ids d) ->
  In down (downstream_of d up) <-> In (up, down) (edges d).
Proof. intros H. apply (get_relatives downstream_task_ids); exact H. Qed.

Lemma swap_in (l : list (string * string)) (a b : string) :
  In (a, b) (map swap l) <-> In (b, a) l.
Proof.
  rewrite in_map_iff. split.
  - intros ([x y] & Heq & Hin). unfold swap in Heq. simpl in Heq. congruence.
  - intros H. exists (b, a). auto.
Qed.

Lemma upstream_in_edges (d : DAG) (up down : string) :
  NoDup (task_ids d) ->
  In up (upstream_of d down) <-> In (up, down) (upstream_edges d).
Proof.
  intros H. unfold upstream_edges. rewrite swap_in.
  apply (get_relatives upstream_task_ids); exact H.
Qed.

(** ** The module loads *)

Lemma declared_task_ids_NoDup : NoDup declared_task_ids.
Proof.
  unfold declared_task_ids.
  repeat constructor; simpl; intuition discriminate.
Qed.

Lemma example_dag_loads :
  exists d, example_dag = Ok d
            /\ task_ids d = declared_task_ids
            /\ edges d = declared_edges
            /\ upstream_edges d = declared_edges.
Proof.
  eexists. split; [vm_compute; reflexivity |].
  repeat split; vm_compute; reflexivity.
Qed.

Lemma depends_declared (up down : string) :
  depends up down <-> In (up, down) declared_edges.
Proof.
  destruct example_dag_loads as (d & Hd & Hids & He & _).
  assert (Hnd : NoDup (task_ids d))
    by (rewrite Hids; exact declared_task_ids_NoDup).
  unfold depends. split.
  - intros (d' & Hd' & Hin). rewrite Hd in Hd'. injection Hd' as <-.
    rewrite <- He. apply downstream_in_edges; assumption.
  - intros Hin. exists d. split; [assumption |].
    apply downstream_in_edges; [assumption |]. rewrite He. exact Hin.
Qed.

Lemma depended_on_by_declared (up down : string) :
  depended_on_by up down <-> In (up, down) declared_edges.
Proof.
  destruct example_dag_loads as (d & Hd & Hids & _ & Hu).
  assert (Hnd : NoDup (task_ids d))
    by (rewrite Hids; exact declared_task_ids_NoDup).
  unfold depended_on_by. split.
  - intros (d' & Hd' & Hin). rewrite Hd in Hd'. injection Hd' as <-.
    rewrite <- Hu. apply upstream_in_edges; assumption.
  - intros Hin. exists d. split; [assumption |].
    apply upstream_in_edges; [assumption |]. rewrite Hu. exact Hin.
Qed.

Lemma is_task_declared (t : string) :
  is_task t <-> In t declared_task_ids.
Proof.
  destruct example_dag_loads as (d & Hd & Hids & _).
  unfold is_task. split.
  - intros (d' & Hd' & Hin). rewrite Hd in Hd'. injection Hd' as <-.
    rewrite <- Hids. exact Hin.
  - intros Hin. exists d. rewrite Hids. auto.
Qed.

(** ** The two callables *)

Lemma append_empty (s : string) : s ++ "" = s.
Proof. induction s as [| c s IH]; simpl; [| rewrite IH]; reflexivity. Qed.

Lemma print_hello_run (w : world) (out : stdout) :
  call w print_hello out
  = (Ok (VStr "Success!"),
     (out ++ hello_lines)%list).
Proof.
  cbv [call print_hello body exec_block exec eval mbind ret lookup_name get
       builtins String.eqb Ascii.eqb Bool.eqb apply print str_of].
  unfold hello_lines. rewrite <- app_assoc. reflexivity.
Qed.

Lemma print_system_info_run (w : world) (out : stdout) :
  call w print_system_info out
  = (Ok (VStr "System info collected!"),
     (out ++ system_info_lines w)%list).
Proof.
  cbv [call print_system_info body exec_block exec eval mbind ret
       lookup_name get set_item importable builtins getattr as_str
       String.eqb Ascii.eqb Bool.eqb orb andb apply print str_of].
  unfold system_info_lines. rewrite <- !app_assoc. simpl.
  rewrite !append_empty. reflexivity.
Qed.

(** C1.  Called directly, in any interpreter and whatever was printed
    before, [print_hello] returns the string ["Success!"] and
    [print_system_info] returns the string ["System info collected!"]. *)
Theorem callables_return_literals (w : world) (out : stdout) :
  fst (call w print_hello out) = Ok (VStr "Success!")
  /\ fst (call w print_system_info out) = Ok (VStr "System info collected!").
Proof.
  rewrite print_hello_run, print_system_info_run. split; reflexivity.
Qed.

(** C6.  The body of each callable is straight-line (it holds no branch
    and no [raise]), and every call returns normally after printing its
    lines in order: two fixed lines for [print_hello], four lines for
    [print_system_info]. *)
Theorem callables_straight_line :
  straight_line (body print_hello) = true
  /\ straight_line (body print_system_info) = true
  /\ (forall w out,
        exists v, call w print_hello out = (Ok v, (out ++ hello_lines)%list))
  /\ (forall w out,
        exists v,
          call w print_system_info out
          = (Ok v, (out ++ system_info_lines w)%list)).
Proof.
  repeat split; try reflexivity; intros w out; eexists.
  - apply print_hello_run.
  - apply print_system_info_run.
Qed.

(** C7.  The value a callable returns does not depend on the interpreter
    it runs in nor on what was printed before: any two calls of
    [print_hello] return the same value, and so do any two calls of
    [print_system_info], whatever [sys.version] and the answers of
    [platform] are. *)
Theorem callables_return_independent_of_world
  (w1 w2 : world) (out1 out2 : stdout) :
  fst (call w1 print_hello out1) = fst (call w2 print_hello out2)
  /\ fst (call w1 print_system_info out1)
     = fst (call w2 print_system_info out2).
Proof.
  rewrite !print_hello_run, !print_system_info_run. split; reflexivity.
Qed.

(** ** The default arguments and the start date *)

(** C4.  The default-arguments dictionary evaluates without error, is the
    one the DAG carries, and sets the integer retry count 1, a retry delay
    of 5 minutes (300 seconds, no microseconds) and both e-mail flags to
    [False]; its keys are the seven written in the source. *)
Theorem default_args_failure_handling :
  exists args,
    default_args = Ok args
    /\ get "retries" args = Some (AInt 1)
    /\ (exists delay,
          get "retry_delay" args = Some (ATimedelta delay)
          /\ total_seconds delay = (5 * 60)%Z
          /\ td_microseconds delay = 0%Z)
    /\ get "email_on_failure" args = Some (ABool false)
    /\ get "email_on_retry" args = Some (ABool false)
    /\ keys args = [ "owner"; "depends_on_past"; "start_date";
                     "email_on_failure"; "email_on_retry"; "retries";
                     "retry_delay" ]
    /\ (exists d, example_dag = Ok d /\ Airflow.default_args d = args).
Proof.
  eexists. split; [vm_compute; reflexivity |].
  repeat split; try reflexivity.
  - eexists. repeat split; reflexivity.
  - eexists. split; vm_compute; reflexivity.
Qed.

(** C10.  The start date in the default arguments and the start date
    passed to the DAG constructor are the same timestamp,
    2024-01-01T00:00:00. *)
Theorem start_dates_agree :
  exists args d t,
    default_args = Ok args
    /\ dag = Ok d
    /\ get "start_date" args = Some (ADatetime t)
    /\ start_date d = t
    /\ isoformat t = "2024-01-01T00:00:00".
Proof.
  do 3 eexists.
  split; [vm_compute; reflexivity |].
  split; [vm_compute; reflexivity |].
  repeat split; reflexivity.
Qed.

(** ** The tasks *)

(** C3.  The statements of the module run without error (no identifier
    is refused as a duplicate), and the graph they declare holds exactly the
    four task identifiers [print_hello], [print_system_info],
    [run_bash_command] and [check_airflow_version], pairwise distinct. *)
Theorem four_unique_task_ids :
  exists d,
    example_dag = Ok d
    /\ task_ids d = [ "print_hello"; "print_system_info";
                      "run_bash_command"; "check_airflow_version" ]
    /\ NoDup (task_ids d)
    /\ length (task_ids d) = 4.
Proof.
  destruct example_dag_loads as (d & Hd & Hids & _).
  exists d. rewrite Hids. repeat split; try assumption.
  exact declared_task_ids_NoDup.
Qed.

(** C8.  The shell tasks of the graph are [run_bash_command] and
    [check_airflow_version]; the first carries the command
    [echo "🎉 Bash task completed successfully!" && date] (the quotes are
    the double-quote character, code 34) and the second the command
    [airflow version]. *)
Theorem bash_commands_fixed :
  exists d,
    example_dag = Ok d
    /\ bash_task_ids d = [ "run_bash_command"; "check_airflow_version" ]
    /\ option_map act (get "run_bash_command" (task_dict d))
       = Some (BashCommand
                 ("echo " ++ dquote ++ "🎉 Bash task completed successfully!"
                  ++ dquote ++ " && date"))
    /\ option_map act (get "check_airflow_version" (task_dict d))
       = Some (BashCommand "airflow version")
    /\ list_ascii_of_string dquote = [ascii_of_nat 34].
Proof.
  eexists. split; [vm_compute; reflexivity |].
  repeat split; vm_compute; reflexivity.
Qed.

(** ** The dependency relation *)

Lemma declared_edges_cases (up down : string) :
  In (up, down) declared_edges
  <-> (up = task_id hello_task /\ down = task_id system_info_task)
      \/ (up = task_id hello_task /\ down = task_id bash_task)
      \/ (up = task_id system_info_task /\ down = task_id version_check_task)
      \/ (up = task_id bash_task /\ down = task_id version_check_task).
Proof.
  unfold declared_edges. simpl. split.
  - intros [H | [H | [H | [H | []]]]]; injection H as <- <-; tauto.
  - intros [[-> ->] | [[-> ->] | [[-> ->] | [-> ->]]]]; tauto.
Qed.

Lemma depends_rank (up down : string) :
  depends up down -> rank up < rank down.
Proof.
  rewrite depends_declared, declared_edges_cases.
  intros [[-> ->] | [[-> ->] | [[-> ->] | [-> ->]]]]; vm_compute; lia.
Qed.

Lemma path_rank (up down : string) :
  clos_trans string depends up down -> rank up < rank down.
Proof.
  induction 1 as [x y H | x y z _ IH1 _ IH2].
  - apply depends_rank; assumption.
  - lia.
Qed.

(** C2.  The direct dependencies the module declares are exactly:
    [hello_task] before [system_info_task], [hello_task] before
    [bash_task], [system_info_task] before [version_check_task] and
    [bash_task] before [version_check_task]; the upstream sets record the
    same four pairs. *)
Theorem dependencies_exact (up down : string) :
  (depends up down
   <-> (up = task_id hello_task /\ down = task_id system_info_task)
       \/ (up = task_id hello_task /\ down = task_id bash_task)
       \/ (up = task_id system_info_task
           /\ down = task_id version_check_task)
       \/ (up = task_id bash_task /\ down = task_id version_check_task))
  /\ (depended_on_by up down <-> depends up down).
Proof.
  split.
  - rewrite depends_declared. apply declared_edges_cases.
  - rewrite depends_declared, depended_on_by_declared. tauto.
Qed.

(** C5.  The declared dependency relation is acyclic: its transitive
    closure relates no task, and no string at all, to itself. *)
Theorem dependencies_acyclic (t : string) :
  ~ clos_trans string depends t t.
Proof.
  intros H. apply path_rank in H. lia.
Qed.

Lemma no_predecessor_iff (t : string) :
  (is_task t /\ forall u, ~ depends u t) <-> t = task_id hello_task.
Proof.
  rewrite is_task_declared. unfold declared_task_ids. simpl. split.
  - intros [Ht Hno].
    destruct Ht as [<- | [<- | [<- | [<- | []]]]]; [reflexivity | | |];
      exfalso.
    + apply (Hno (task_id hello_task)).
      apply depends_declared, declared_edges_cases. tauto.
    + apply (Hno (task_id hello_task)).
      apply depends_declared, declared_edges_cases. tauto.
    + apply (Hno (task_id bash_task)).
      apply depends_declared, declared_edges_cases. tauto.
  - intros ->. split; [tauto |].
    intros u Hu. apply depends_rank in Hu. vm_compute in Hu. lia.
Qed.

Lemma no_successor_iff (t : string) :
  (is_task t /\ forall u, ~ depends t u) <-> t = task_id version_check_task.
Proof.
  rewrite is_task_declared. unfold declared_task_ids. simpl. split.
  - intros [Ht Hno].
    destruct Ht as [<- | [<- | [<- | [<- | []]]]]; [| | | reflexivity];
      exfalso.
    + apply (Hno (task_id bash_task)).
      apply depends_declared, declared_edges_cases. tauto.
    + apply (Hno (task_id version_check_task)).
      apply depends_declared, declared_edges_cases. tauto.
    + apply (Hno (task_id version_check_task)).
      apply depends_declared, declared_edges_cases. tauto.
  - intros ->. split; [tauto |].
    intros u Hu. apply depends_declared, declared_edges_cases in Hu.
    destruct Hu as [[H _] | [[H _] | [[H _] | [H _]]]]; discriminate H.
Qed.

Lemma rank_le_2 (t : string) : rank t <= 2.
Proof.
  unfold rank.
  repeat match goal with |- context [if ?b then _ else _] => destruct b end;
    lia.
Qed.

Lemma depends_is_task (up down : string) :
  depends up down -> is_task up /\ is_task down.
Proof.
  rewrite depends_declared, declared_edges_cases, !is_task_declared.
  unfold declared_task_ids.
  intros [[-> ->] | [[-> ->] | [[-> ->] | [-> ->]]]]; simpl; tauto.
Qed.

Lemma chain_of_three (mid : string) :
  mid = task_id system_info_task \/ mid = task_id bash_task ->
  maximal_chain [task_id hello_task; mid; task_id version_check_task].
Proof.
  intros Hmid.
  assert (H1 : depends (task_id hello_task) mid)
    by (apply depends_declared, declared_edges_cases; tauto).
  assert (H2 : depends mid (task_id version_check_task))
    by (apply depends_declared, declared_edges_cases; tauto).
  repeat split.
  - exact H1.
  - exact H2.
  - apply (depends_is_task _ _ H2).
  - apply (proj2 (no_predecessor_iff (task_id hello_task)) eq_refl).
  - apply (proj2 (no_successor_iff (task_id version_check_task)) eq_refl).
Qed.

(** C9.  [hello_task] is the only task without a predecessor,
    [version_check_task] the only task without a successor, and the
    maximal chains are exactly [hello_task], then [system_info_task] or
    [bash_task], then [version_check_task]. *)
Theorem source_sink_and_maximal_chains :
  (forall t, (is_task t /\ forall u, ~ depends u t)
             <-> t = task_id hello_task)
  /\ (forall t, (is_task t /\ forall u, ~ depends t u)
                <-> t = task_id version_check_task)
  /\ (forall l,
        maximal_chain l
        <-> l = [ task_id hello_task; task_id system_info_task;
                  task_id version_check_task ]
            \/ l = [ task_id hello_task; task_id bash_task;
                     task_id version_check_task ]).
Proof.
  split; [exact no_predecessor_iff |].
  split; [exact no_successor_iff |].
  intros l. split.
  - intros (Hc & Hfirst & Hlast).
    destruct l as [| a [| b [| c [| e r]]]]; simpl in Hc.
    + contradiction.
    + assert (Ha : a = task_id hello_task)
        by (apply no_predecessor_iff; split; assumption).
      assert (Ha' : a = task_id version_check_task)
        by (apply no_successor_iff; split; assumption).
      rewrite Ha in Ha'. discriminate Ha'.
    + destruct Hc as [Hab Hb].
      assert (Ha : a = task_id hello_task).
      { apply no_predecessor_iff. split; [| exact Hfirst].
        apply (depends_is_task _ _ Hab). }
      assert (Hb' : b = task_id version_check_task)
        by (apply no_successor_iff; split; assumption).
      subst a b. apply depends_declared, declared_edges_cases in Hab.
      destruct Hab as [[_ H] | [[_ H] | [[H _] | [H _]]]]; discriminate H.
    + destruct Hc as (Hab & Hbc & Hc).
      assert (Ha : a = task_id hello_task).
      { apply no_predecessor_iff. split; [| exact Hfirst].
        apply (depends_is_task _ _ Hab). }
      assert (Hc' : c = task_id version_check_task)
        by (apply no_successor_iff; split; assumption).
      subst a c.
      apply depends_declared, declared_edges_cases in Hab.
      destruct Hab as [[_ ->] | [[_ ->] | [[H _] | [H _]]]];
        try discriminate H; tauto.
    + destruct Hc as (Hab & Hbc & Hce & _).
      apply depends_rank in Hab, Hbc, Hce.
      pose proof (rank_le_2 e). lia.
  - intros [-> | ->]; apply chain_of_three; tauto.
Qed.

(** * Further properties of the module *)

(** ** What the Python tasks run *)

Lemma get_actions (t : dict operator) (id : string) :
  option_map act (get id t) = get id (actions t).
Proof.
  induction t as [| [k v] t IH]; simpl; [reflexivity |].
  destruct (String.eqb id k); [reflexivity | exact IH].
Qed.

Lemma loaded_actions :
  exists d,
    example_dag = Ok d
    /\ actions (task_dict d)
       = [ (task_id hello_task, act hello_task);
           (task_id system_info_task, act system_info_task);
           (task_id bash_task, act bash_task);
           (task_id version_check_task, act version_check_task) ].
Proof. eexists. split; vm_compute; reflexivity. Qed.

Lemma task_action_cases (id : string) (a : action) :
  task_action id = Some a
  <-> (id = task_id hello_task /\ a = act hello_task)
      \/ (id = task_id system_info_task /\ a = act system_info_task)
      \/ (id = task_id bash_task /\ a = act bash_task)
      \/ (id = task_id version_check_task /\ a = act version_check_task).
Proof.
  destruct loaded_actions as (d & Hd & Ha).
  unfold task_action. rewrite Hd, get_actions, Ha. cbn [get]. split.
  - intros H.
    destruct (String.eqb_spec id (task_id hello_task)) as [-> | _];
      [injection H as <-; tauto |].
    destruct (String.eqb_spec id (task_id system_info_task)) as [-> | _];
      [injection H as <-; tauto |].
    destruct (String.eqb_spec id (task_id bash_task)) as [-> | _];
      [injection H as <-; tauto |].
    destruct (String.eqb_spec id (task_id version_check_task)) as [-> | _];
      [injection H as <-; tauto | discriminate H].
  - intros [[-> ->] | [[-> ->] | [[-> ->] | [-> ->]]]]; reflexivity.
Qed.

(** X1.  Every task of the graph that runs a Python function is bound to
    the function that carries the task's own identifier as its name, and
    running that function, in any interpreter and after any earlier
    output, returns a string without raising and only adds lines to what
    was printed. *)
Theorem python_tasks_run
  (id : string) (f : funcdef) (w : world) (out : stdout) :
  task_action id = Some (PythonCallable f) ->
  name f = id
  /\ exists s lines, call w f out = (Ok (VStr s), (out ++ lines)%list).
Proof.
  intros H. apply task_action_cases in H.
  destruct H as [[-> H] | [[-> H] | [[_ H] | [_ H]]]];
    try discriminate H; injection H as ->.
  - split; [reflexivity |]. do 2 eexists. apply print_hello_run.
  - split; [reflexivity |]. do 2 eexists. apply print_system_info_run.
Qed.

Lemma python_tasks_run_witness :
  name print_system_info = "print_system_info"
  /\ exists s lines,
       call (mk_world "3.12.1" "Linux-6.1" "") print_system_info ["boot"]
       = (Ok (VStr s), (["boot"] ++ lines)%list).
Proof.
  apply (python_tasks_run "print_system_info" print_system_info
           (mk_world "3.12.1" "Linux-6.1" "") ["boot"]).
  vm_compute. reflexivity.
Defined.

(** ** What the printed report tells *)



(** ** Everything that runs before something else *)

Lemma declared_paths_cases (up down : string) :
  In (up, down) declared_paths
  <-> In (up, down) declared_edges
      \/ (up = task_id hello_task /\ down = task_id version_check_task).
Proof.
  unfold declared_paths. rewrite in_app_iff. simpl. split.
  - intros [H | [H | []]]; [tauto |]. injection H as <- <-. tauto.
  - intros [H | [-> ->]]; tauto.
Qed.

Lemma paths_declared (up down : string) :
  clos_trans string depends up down <-> In (up, down) declared_paths.
Proof.
  split.
  - induction 1 as [x y H | x y z _ IH1 _ IH2].
    + apply declared_paths_cases. left. apply depends_declared. exact H.
    + apply declared_paths_cases in IH1, IH2. apply declared_paths_cases.
      rewrite declared_edges_cases in *.
      destruct IH1 as [[[-> ->] | [[-> ->] | [[-> ->] | [-> ->]]]] | [-> ->]];
        destruct IH2 as [[[E ->] | [[E ->] | [[E ->] | [E ->]]]] | [E ->]];
        try discriminate E; tauto.
  - intros H. apply declared_paths_cases in H. destruct H as [H | [-> ->]].
    + apply t_step, depends_declared. exact H.
    + apply t_trans with (task_id system_info_task);
        apply t_step, depends_declared, declared_edges_cases; tauto.
Qed.

(** X3.  One task runs before another, directly or through other tasks,
    exactly when it is one of its direct predecessors or the two are
    [hello_task] and [version_check_task]: the two [>>] statements add one
    indirect dependency and no other. *)
Theorem paths_exact (up down : string) :
  clos_trans string depends up down
  <-> depends up down
      \/ (up = task_id hello_task /\ down = task_id version_check_task).
Proof.
  rewrite paths_declared, declared_paths_cases, depends_declared.
  tauto.
Qed.

(** X4.  [hello_task] runs before every other task and
    [version_check_task] after every other task, while
    [system_info_task] and [bash_task] are left unordered: neither runs
    before the other, even indirectly. *)
Theorem first_last_and_unordered_middle :
  (forall t, is_task t
             <-> t = task_id hello_task
                 \/ clos_trans string depends (task_id hello_task) t)
  /\ (forall t, is_task t
                <-> t = task_id version_check_task
                    \/ clos_trans string depends t
                         (task_id version_check_task))
  /\ ~ clos_trans string depends (task_id system_info_task)
         (task_id bash_task)
  /\ ~ clos_trans string depends (task_id bash_task)
         (task_id system_info_task).
Proof.
  repeat split.
  - rewrite is_task_declared. unfold declared_task_ids. simpl.
    intros [<- | [<- | [<- | [<- | []]]]]; [left; reflexivity | | |];
      right; apply paths_declared; vm_compute; tauto.
  - intros [-> | H]; [apply is_task_declared; simpl; tauto |].
    apply paths_declared, declared_paths_cases in H.
    rewrite declared_edges_cases in H. apply is_task_declared.
    unfold declared_task_ids.
    destruct H as [[[_ ->] | [[_ ->] | [[_ ->] | [_ ->]]]] | [_ ->]];
      simpl; tauto.
  - rewrite is_task_declared. unfold declared_task_ids. simpl.
    intros [<- | [<- | [<- | [<- | []]]]]; [| | | left; reflexivity];
      right; apply paths_declared; vm_compute; tauto.
  - intros [-> | H]; [apply is_task_declared; simpl; tauto |].
    apply paths_declared, declared_paths_cases in H.
    rewrite declared_edges_cases in H. apply is_task_declared.
    unfold declared_task_ids.
    destruct H as [[[-> _] | [[-> _] | [[-> _] | [-> _]]]] | [-> _]];
      simpl; tauto.
  - intros H. apply path_rank in H. vm_compute in H. lia.
  - intros H. apply path_rank in H. vm_compute in H. lia.
Qed.

(** ** The orders in which the tasks can run one at a time *)

Lemma schedule_length (l : list string) :
  NoDup l -> (forall t, In t l <-> is_task t) -> length l = 4.
Proof.
  intros Hnd Hin.
  assert (P : Permutation l declared_task_ids).
  { apply NoDup_Permutation;
      [exact Hnd | exact declared_task_ids_NoDup |].
    intros t. rewrite Hin. apply is_task_declared. }
  apply Permutation_length in P. exact P.
Qed.

Lemma schedule_of_order (l : list string) :
  l = [ task_id hello_task; task_id system_info_task; task_id bash_task;
        task_id version_check_task ]
  \/ l = [ task_id hello_task; task_id bash_task; task_id system_info_task;
           task_id version_check_task ] ->
  schedule l.
Proof.
  intros Hl. repeat split.
  - destruct Hl as [-> | ->];
      repeat constructor; simpl; intuition discriminate.
  - intros H. apply is_task_declared. unfold declared_task_ids.
    destruct Hl as [-> | ->]; simpl in *; tauto.
  - intros H. apply is_task_declared in H. unfold declared_task_ids in H.
    destruct Hl as [-> | ->]; simpl in *; tauto.
  - intros up down H. apply depends_declared, declared_edges_cases in H.
    destruct Hl as [-> | ->];
      destruct H as [[-> ->] | [[-> ->] | [[-> ->] | [-> ->]]]];
      reflexivity.
Qed.

(** X5.  A sequence runs every task once and none before one of its
    direct predecessors exactly when it is [hello_task],
    [system_info_task], [bash_task], [version_check_task] or the same with
    the two middle tasks exchanged: the declaration allows these two
    sequential orders and no other. *)
Theorem schedules_exact (l : list string) :
  schedule l
  <-> l = [ task_id hello_task; task_id system_info_task;
            task_id bash_task; task_id version_check_task ]
      \/ l = [ task_id hello_task; task_id bash_task;
               task_id system_info_task; task_id version_check_task ].
Proof.
  split; [| apply schedule_of_order].
  intros (Hnd & Hin & Hdep).
  pose proof (schedule_length l Hnd Hin) as Hlen.
  destruct l as [| a [| b [| c [| e [| x r]]]]]; try discriminate Hlen.
  clear Hlen Hnd.
  assert (E1 : runs_before (task_id hello_task) (task_id system_info_task)
                 [a; b; c; e] = true)
    by (apply Hdep, depends_declared, declared_edges_cases; tauto).
  assert (E2 : runs_before (task_id hello_task) (task_id bash_task)
                 [a; b; c; e] = true)
    by (apply Hdep, depends_declared, declared_edges_cases; tauto).
  assert (E3 : runs_before (task_id system_info_task)
                 (task_id version_check_task) [a; b; c; e] = true)
    by (apply Hdep, depends_declared, declared_edges_cases; tauto).
  assert (E4 : runs_before (task_id bash_task)
                 (task_id version_check_task) [a; b; c; e] = true)
    by (apply Hdep, depends_declared, declared_edges_cases; tauto).
  assert (Ha : In a declared_task_ids)
    by (apply is_task_declared, Hin; simpl; tauto).
  assert (Hb : In b declared_task_ids)
    by (apply is_task_declared, Hin; simpl; tauto).
  assert (Hc : In c declared_task_ids)
    by (apply is_task_declared, Hin; simpl; tauto).
  assert (He : In e declared_task_ids)
    by (apply is_task_declared, Hin; simpl; tauto).
  clear Hin Hdep. unfold declared_task_ids in *. simpl in Ha, Hb, Hc, He.
  destruct Ha as [<- | [<- | [<- | [<- | []]]]];
    destruct Hb as [<- | [<- | [<- | [<- | []]]]];
    try discriminate E1; try discriminate E2;
    destruct Hc as [<- | [<- | [<- | [<- | []]]]];
    try discriminate E1; try discriminate E2;
    try discriminate E3; try discriminate E4;
    destruct He as [<- | [<- | [<- | [<- | []]]]];
    try discriminate E1; try discriminate E2;
    try discriminate E3; try discriminate E4;
    auto.
Qed.

(** ** The DAG object and its default arguments *)


(** X7.  The default arguments name [mcheriyath] as owner and leave
    [depends_on_past] off, and a key has a value in them exactly when it
    is one of the seven keys written in the source: looking up any other
    key, such as [email], finds nothing. *)
Theorem default_args_keys :
  exists args,
    default_args = Ok args
    /\ get "owner" args = Some (AStr "mcheriyath")
    /\ get "depends_on_past" args = Some (ABool false)
    /\ get "email" args = None
    /\ forall k,
         get k args <> None
         <-> In k [ "owner"; "depends_on_past"; "start_date";
                    "email_on_failure"; "email_on_retry"; "retries";
                    "retry_delay" ].
Proof.
  eexists. split; [vm_compute; reflexivity |].
  repeat split; try reflexivity.
  - cbn [get]. simpl.
    repeat match goal with
           | |- context [String.eqb k ?s] =>
               destruct (String.eqb_spec k s) as [-> | _]; [tauto |]
           end.
    intros H. contradiction H. reflexivity.
  - simpl. intros [<- | [<- | [<- | [<- | [<- | [<- | [<- | []]]]]]]];
      discriminate.
Qed.
